(** * Roborock scene selector and scene trigger

    A shallow embedding of [custom_components/roborock/scene_trigger.py]:
    the select entity that stores a scene name per device in the
    coordinator's [selected_scenes] dict, and the button entity that resolves
    the stored name to a scene id and asks the cloud client to execute it.

    Python objects are records, the coordinator's dict is a [gmap], the
    remote client is a pair of fallible functions, and every call that leaves
    the file (cloud client, logger, host framework) is recorded in a trace. *)

From Stdlib Require Import ZArith.
From stdpp Require Import gmap strings list fin_maps.

(** ** Python values used by the file *)

(** An exception object: an instance of Python's [Exception] class, which is
    what both [except Exception] clauses of the file catch.  Task cancellation
    and interpreter exit are signalled outside that class by the runtime and
    are not failures of a call; they are not represented. *)
Record exn := Exception { exc_class : string; exc_message : string }.

(** What running a piece of Python code ends in. *)
Inductive Outcome (A : Type) : Type :=
| Returned (a : A)
| Raised (e : exn).
Arguments Returned {A} a.
Arguments Raised {A} e.

(** [bool(x)] for the kinds of value the file tests. *)
Definition truthy_str (s : string) : bool :=
  match s with EmptyString => false | _ => true end.

Definition truthy_opt_str (o : option string) : bool :=
  match o with None => false | Some s => truthy_str s end.

Definition truthy_opt_int (o : option Z) : bool :=
  match o with None => false | Some z => negb (z =? 0)%Z end.

(** [int(x)] on an [int] is the identity and cannot raise. *)
Definition int (z : Z) : Z := z.

(** ** The collaborators *)

(** Modelled from the spec: the scene objects the cloud client returns; their
    class is declared by the client library, not by this file.  The spec gives
    a scene an identifier, passed to [execute_scene] as an integer, and a
    human-readable name that need not be unique. *)
Record Scene := { id : Z; name : string }.

(** [coordinator.user_data], passed through to the client untouched. *)
Inductive UserData := Credentials (token : string).

(** The cloud client.  Each method is a function of its arguments to its
    answer at the moment of the call: a list or nothing on success, an
    exception on failure.  No operation of the file calls a method twice, so
    a function describes every behaviour the client can show to one
    operation; between operations the coordinator may carry another client
    state. *)
Record CloudApi := {
  get_scenes : UserData → string → exn + list Scene;
  execute_scene : UserData → Z → exn + ()
}.

(** The coordinator object shared by the two entities of a device.
    [selected_scenes] is [None] while the attribute does not exist
    ([hasattr] is false); the dict maps a device id to a name or to Python's
    [None]. *)
Record Coordinator := {
  cloud_api : CloudApi;
  user_data : UserData;
  selected_scenes : option (gmap string (option string))
}.

(** ** Calls that leave the file *)

Inductive LogLevel := INFO | WARNING | ERROR.

Inductive LogArg :=
| ArgSceneId (scene_id : option Z)
| ArgErr (err : exn).

Inductive Event :=
| CallGetScenes (user : UserData) (device_id : string)
| CallExecuteScene (user : UserData) (scene_id : Z)
| Log (level : LogLevel) (msg : string) (args : list LogArg) (exc_info : bool)
| SuperAddedToHass
| WriteHaState.

(** The scene ids [execute_scene] was called with, in call order. *)
Definition executed (tr : list Event) : list Z :=
  omap (λ ev, match ev with CallExecuteScene _ i => Some i | _ => None end) tr.

(** The devices [get_scenes] was called for, in call order. *)
Definition fetched (tr : list Event) : list string :=
  omap (λ ev, match ev with CallGetScenes _ d => Some d | _ => None end) tr.

(** The levels of the records logged, in order. *)
Definition logged (tr : list Event) : list LogLevel :=
  omap (λ ev, match ev with Log l _ _ _ => Some l | _ => None end) tr.

(** ** Program state and the monad of methods *)

(** A method runs on its receiver [self], the coordinator the receiver
    points to, and the trace of outside calls made so far (oldest first). *)
Record World (Self : Type) := mkWorld {
  self : Self;
  coordinator : Coordinator;
  trace : list Event
}.
Arguments mkWorld {Self}.
Arguments self {Self}.
Arguments coordinator {Self}.
Arguments trace {Self}.

(** Statements may update the state and may raise. *)
Definition M (Self A : Type) : Type := World Self → Outcome A * World Self.

Definition ret {Self A} (a : A) : M Self A := λ w, (Returned a, w).

Definition bind {Self A B} (m : M Self A) (k : A → M Self B) : M Self B :=
  λ w, match m w with
       | (Returned a, w') => k a w'
       | (Raised e, w') => (Raised e, w')
       end.

Definition raise {Self A} (e : exn) : M Self A := λ w, (Raised e, w).

(** [try: body / except Exception as err: handler err].  The handler starts
    from the state the body left when it raised. *)
Definition try_except {Self A} (body : M Self A) (handler : exn → M Self A)
  : M Self A :=
  λ w, match body w with
       | (Returned a, w') => (Returned a, w')
       | (Raised e, w') => handler e w'
       end.

Declare Scope py_scope.
Delimit Scope py_scope with py.
Notation "x <~ m ;; k" := (bind m (λ x, k))
  (at level 100, m at next level, right associativity) : py_scope.
Notation "m ;;; k" := (bind m (λ _, k))
  (at level 100, right associativity) : py_scope.
Open Scope py_scope.

Definition emit {Self} (ev : Event) : M Self () :=
  λ w, (Returned (), mkWorld (self w) (coordinator w) (trace w ++ [ev])).

Definition get_self {Self} : M Self Self := λ w, (Returned (self w), w).

Definition set_self {Self} (s : Self) : M Self () :=
  λ w, (Returned (), mkWorld s (coordinator w) (trace w)).

Definition get_coordinator {Self} : M Self Coordinator :=
  λ w, (Returned (coordinator w), w).

Definition set_coordinator {Self} (co : Coordinator) : M Self () :=
  λ w, (Returned (), mkWorld (self w) co (trace w)).

(** [await self.coordinator.cloud_api.get_scenes(self.coordinator.user_data, device_id)] *)
Definition await_get_scenes {Self} (device_id : string) : M Self (list Scene) :=
  co <~ get_coordinator ;;
  emit (CallGetScenes (user_data co) device_id) ;;;
  match get_scenes (cloud_api co) (user_data co) device_id with
  | inl e => raise e
  | inr scenes => ret scenes
  end.

(** [await self.coordinator.cloud_api.execute_scene(self.coordinator.user_data, scene_id)] *)
Definition await_execute_scene {Self} (scene_id : Z) : M Self () :=
  co <~ get_coordinator ;;
  emit (CallExecuteScene (user_data co) scene_id) ;;;
  match execute_scene (cloud_api co) (user_data co) scene_id with
  | inl e => raise e
  | inr _ => ret ()
  end.

Definition AttributeError_selected_scenes : exn :=
  Exception "AttributeError" "object has no attribute 'selected_scenes'".

(** [self.coordinator.selected_scenes[device_id] = value]: an attribute
    lookup, which raises when the attribute is missing, then an in-place
    update of the shared dict. *)
Definition selected_scenes_setitem {Self} (device_id : string)
    (value : option string) : M Self () :=
  co <~ get_coordinator ;;
  match selected_scenes co with
  | None => raise AttributeError_selected_scenes
  | Some d =>
      set_coordinator
        {| cloud_api := cloud_api co;
           user_data := user_data co;
           selected_scenes := Some (<[device_id := value]> d) |}
  end.

(** [dict.get(key)]: the stored value, Python's [None] when the key is
    missing. *)
Definition dict_get (d : gmap string (option string)) (key : string)
  : option string :=
  match d !! key with
  | Some v => v
  | None => None
  end.

Definition modify_self {Self} (f : Self → Self) : M Self () :=
  s <~ get_self ;; set_self (f s).

(** [self.async_write_ha_state()], a call into the host framework. *)
Definition async_write_ha_state {Self} : M Self () := emit WriteHaState.

(** [_LOGGER.info / warning / error]. *)
Definition _LOGGER_info {Self} (msg : string) (args : list LogArg) : M Self () :=
  emit (Log INFO msg args false).

Definition _LOGGER_warning {Self} (msg : string) (args : list LogArg) : M Self () :=
  emit (Log WARNING msg args false).

Definition _LOGGER_error {Self} (msg : string) (args : list LogArg)
    (exc_info : bool) : M Self () :=
  emit (Log ERROR msg args exc_info).

(** The name-to-id scan both classes contain:
    [for scene in scenes: if scene.name == wanted: <take scene.id and stop>].
    [not_found] is the value the variable keeps when the loop ends without a
    match. *)
Fixpoint scan_scene_id (wanted : option string) (scenes : list Scene)
    (not_found : option Z) : option Z :=
  match scenes with
  | [] => not_found
  | scene :: rest =>
      if bool_decide (Some (name scene) = wanted)
      then Some (id scene)
      else scan_scene_id wanted rest not_found
  end.

(** ** class RoborockSceneSelectEntity *)

Module RoborockSceneSelectEntity.

Record t := {
  unique_id : string;
  device_id : string;
  _scenes : list Scene;
  _selected_scene_name : option string;
  _attr_options : list string;
  _attr_name : string
}.

Definition with__scenes (v : list Scene) (s : t) : t :=
  {| unique_id := unique_id s; device_id := device_id s; _scenes := v;
     _selected_scene_name := _selected_scene_name s;
     _attr_options := _attr_options s; _attr_name := _attr_name s |}.

Definition with__selected_scene_name (v : option string) (s : t) : t :=
  {| unique_id := unique_id s; device_id := device_id s; _scenes := _scenes s;
     _selected_scene_name := v;
     _attr_options := _attr_options s; _attr_name := _attr_name s |}.

Definition with__attr_options (v : list string) (s : t) : t :=
  {| unique_id := unique_id s; device_id := device_id s; _scenes := _scenes s;
     _selected_scene_name := _selected_scene_name s;
     _attr_options := v; _attr_name := _attr_name s |}.

(** The constructor: the new object, and the coordinator with the
    [selected_scenes] dict created when the attribute was missing. *)
Definition __init__ (unique_id device_id : string) (co : Coordinator)
  : t * Coordinator :=
  ({| unique_id := unique_id; device_id := device_id; _scenes := [];
      _selected_scene_name := None; _attr_options := [];
      _attr_name := "Selected Scene" |},
   (* if not hasattr(self.coordinator, "selected_scenes"): ... = {} *)
   match selected_scenes co with
   | Some _ => co
   | None => {| cloud_api := cloud_api co; user_data := user_data co;
                selected_scenes := Some ∅ |}
   end).

Definition _fetch_scenes : M t () :=
  s <~ get_self ;;
  scenes <~ await_get_scenes (device_id s) ;;
  modify_self (with__scenes scenes) ;;;
  modify_self (with__attr_options (name <$> scenes)) ;;;
  (* if scenes: self._selected_scene_name = scenes[0].name *)
  match scenes with
  | scene0 :: _ => modify_self (with__selected_scene_name (Some (name scene0)))
  | [] => ret ()
  end ;;;
  s <~ get_self ;;
  selected_scenes_setitem (device_id s) (_selected_scene_name s) ;;;
  async_write_ha_state.

Definition async_added_to_hass : M t () :=
  emit SuperAddedToHass ;;;
  _fetch_scenes.

Definition async_select_option (option : string) : M t () :=
  modify_self (with__selected_scene_name (Some option)) ;;;
  s <~ get_self ;;
  selected_scenes_setitem (device_id s) (Some option) ;;;
  async_write_ha_state.

Definition current_option (s : t) : option string := _selected_scene_name s.

Definition get_selected_scene_id (s : t) : option Z :=
  scan_scene_id (_selected_scene_name s) (_scenes s) None.

End RoborockSceneSelectEntity.

(** ** class RoborockSceneTriggerButton *)

Module RoborockSceneTriggerButton.

Record t := {
  unique_id : string;
  device_id : string;
  _attr_name : string
}.

Definition __init__ (unique_id device_id : string) : t :=
  {| unique_id := unique_id; device_id := device_id;
     _attr_name := "Trigger Scene" |}.

(** [int(scene_id)] on the local variable, which holds an id or [None]. *)
Definition int_scene_id {Self} (scene_id : option Z) : M Self Z :=
  match scene_id with
  | Some z => ret (int z)
  | None => raise (Exception "TypeError" "int() argument must not be 'NoneType'")
  end.

Definition async_press : M t () :=
  s <~ get_self ;;
  co <~ get_coordinator ;;
  let scene_name :=
    match selected_scenes co with
    | Some d => dict_get d (device_id s)
    | None => None
    end in
  scene_id <~
    (if truthy_opt_str scene_name
     then try_except
            (scenes <~ await_get_scenes (device_id s) ;;
             ret (scan_scene_id scene_name scenes None))
            (λ err,
             _LOGGER_error "Error fetching scenes before execution: %s"
               [ArgErr err] false ;;;
             ret None)
     else ret None) ;;
  if truthy_opt_int scene_id
  then try_except
         (n <~ int_scene_id scene_id ;;
          await_execute_scene n ;;;
          _LOGGER_info "Executed Roborock scene: %s" [ArgSceneId scene_id])
         (λ err,
          _LOGGER_error "Error executing scene %s: %s"
            [ArgSceneId scene_id; ArgErr err] true ;;;
          raise err)
  else _LOGGER_warning "No scene selected to execute." [].

End RoborockSceneTriggerButton.

Module Sel := RoborockSceneSelectEntity.
Module Btn := RoborockSceneTriggerButton.

(** ** Reading a world *)

(** The name the button reads for a device:
    [coordinator.selected_scenes.get(device_id)] when the attribute exists,
    [None] otherwise. *)
Definition selection_of (co : Coordinator) (device_id : string) : option string :=
  match selected_scenes co with
  | Some d => dict_get d device_id
  | None => None
  end.

(** What the cloud answers to the receiver's [get_scenes] and
    [execute_scene] calls. *)
Definition scenes_answer {Self} (dev : Self → string) (w : World Self)
  : exn + list Scene :=
  get_scenes (cloud_api (coordinator w)) (user_data (coordinator w)) (dev (self w)).

Definition execute_answer {Self} (w : World Self) (scene_id : Z) : exn + () :=
  execute_scene (cloud_api (coordinator w)) (user_data (coordinator w)) scene_id.

(** The world after more outside calls. *)
Definition after {Self} (w : World Self) (evs : list Event) : World Self :=
  mkWorld (self w) (coordinator w) (trace w ++ evs).

(** Handing the coordinator and the trace over to another receiver. *)
Definition with_self {Self Self'} (s : Self') (w : World Self) : World Self' :=
  mkWorld s (coordinator w) (trace w).

(** The log records of the button. *)
Definition warn_no_scene : Event :=
  Log WARNING "No scene selected to execute." [] false.

Definition error_fetching (err : exn) : Event :=
  Log ERROR "Error fetching scenes before execution: %s" [ArgErr err] false.

Definition error_executing (scene_id : Z) (err : exn) : Event :=
  Log ERROR "Error executing scene %s: %s" [ArgSceneId (Some scene_id); ArgErr err] true.

Definition info_executed (scene_id : Z) : Event :=
  Log INFO "Executed Roborock scene: %s" [ArgSceneId (Some scene_id)] false.

(** ** The ways a press can go *)

(** What a press did, as a relation between the world before it and its
    result.  [press_cases] below shows that [async_press] always falls under
    one of the five. *)
Inductive PressCase (w : World Btn.t) : Outcome () * World Btn.t → Prop :=
| PressNoSelection :
    truthy_opt_str (selection_of (coordinator w) (Btn.device_id (self w))) = false →
    PressCase w (Returned (), after w [warn_no_scene])
| PressFetchRaises err :
    truthy_opt_str (selection_of (coordinator w) (Btn.device_id (self w))) = true →
    scenes_answer Btn.device_id w = inl err →
    PressCase w
      (Returned (),
       after w [CallGetScenes (user_data (coordinator w)) (Btn.device_id (self w));
                error_fetching err; warn_no_scene])
| PressNoId scenes :
    truthy_opt_str (selection_of (coordinator w) (Btn.device_id (self w))) = true →
    scenes_answer Btn.device_id w = inr scenes →
    truthy_opt_int
      (scan_scene_id (selection_of (coordinator w) (Btn.device_id (self w)))
         scenes None) = false →
    PressCase w
      (Returned (),
       after w [CallGetScenes (user_data (coordinator w)) (Btn.device_id (self w));
                warn_no_scene])
| PressExecuteReturns scenes scene_id :
    truthy_opt_str (selection_of (coordinator w) (Btn.device_id (self w))) = true →
    scenes_answer Btn.device_id w = inr scenes →
    scan_scene_id (selection_of (coordinator w) (Btn.device_id (self w)))
      scenes None = Some scene_id →
    scene_id ≠ 0%Z →
    execute_answer w scene_id = inr () →
    PressCase w
      (Returned (),
       after w [CallGetScenes (user_data (coordinator w)) (Btn.device_id (self w));
                CallExecuteScene (user_data (coordinator w)) scene_id;
                info_executed scene_id])
| PressExecuteRaises scenes scene_id err :
    truthy_opt_str (selection_of (coordinator w) (Btn.device_id (self w))) = true →
    scenes_answer Btn.device_id w = inr scenes →
    scan_scene_id (selection_of (coordinator w) (Btn.device_id (self w)))
      scenes None = Some scene_id →
    scene_id ≠ 0%Z →
    execute_answer w scene_id = inl err →
    PressCase w
      (Raised err,
       after w [CallGetScenes (user_data (coordinator w)) (Btn.device_id (self w));
                CallExecuteScene (user_data (coordinator w)) scene_id;
                error_executing scene_id err]).

(** ** Statements about a press *)


(** ** A device to run the methods on *)

Module Demo.

Definition scene_A : Scene := {| id := 1; name := "A" |}.
Definition scene_B : Scene := {| id := 2; name := "B" |}.
Definition scene_C : Scene := {| id := 3; name := "C" |}.
Definition scenes_ABC : list Scene := [scene_A; scene_B; scene_C].


Definition err_timeout : exn := Exception "RoborockException" "timed out".

(** A cloud that gives every caller the same two answers. *)
Definition cloud (scenes : exn + list Scene) (exec : exn + ()) : CloudApi :=
  {| get_scenes := λ _ _, scenes; execute_scene := λ _ _, exec |}.

Definition coordinator_of (api : CloudApi)
    (sel : option (gmap string (option string))) : Coordinator :=
  {| cloud_api := api; user_data := Credentials "token";
     selected_scenes := sel |}.

(** The selector of device [dev1] as its constructor leaves it, on a
    coordinator that had no [selected_scenes] attribute yet. *)
Definition select_world (api : CloudApi) : World Sel.t :=
  let '(s, co) :=
    Sel.__init__ "s7_selected_scene" "dev1" (coordinator_of api None) in
  mkWorld s co [].

(** The button of device [dev1] on a coordinator with the given dict. *)
Definition button_world (api : CloudApi)
    (sel : option (gmap string (option string))) : World Btn.t :=
  mkWorld (Btn.__init__ "s7_trigger_scene" "dev1") (coordinator_of api sel) [].

(** The dict with the one entry [dev1 -> v]. *)
Definition chose (v : option string) : option (gmap string (option string)) :=
  Some {[ "dev1" := v ]}.

End Demo.

(** ** Platform setup: async_setup_entry *)

(** A coordinator object as [async_setup_entry] reads it: the attributes the
    entities use, and [coordinator.data.device.name]. *)
Record CoordinatorObject := {
  attrs : Coordinator;
  data_device_name : string
}.

(** The coordinator objects, by reference: [device_entry_data["coordinator"]]
    is a reference, and two devices may hold the same one. *)
Definition Heap : Type := nat → CoordinatorObject.

Definition heap_set (h : Heap) (ref : nat) (o : CoordinatorObject) : Heap :=
  λ r, if decide (r = ref) then o else h r.

(** An element of the [entities] list: the object and the coordinator it was
    constructed on. *)
Inductive Entity :=
| SceneSelector (scene_selector : Sel.t) (coordinator_ref : nat)
| TriggerButton (trigger_button : Btn.t) (coordinator_ref : nat).

Definition entity_unique_id (e : Entity) : string :=
  match e with
  | SceneSelector s _ => Sel.unique_id s
  | TriggerButton b _ => Btn.unique_id b
  end.

Definition entity_device_id (e : Entity) : string :=
  match e with
  | SceneSelector s _ => Sel.device_id s
  | TriggerButton b _ => Btn.device_id b
  end.

Definition entity_coordinator_ref (e : Entity) : nat :=
  match e with
  | SceneSelector _ r => r
  | TriggerButton _ r => r
  end.

Definition AttributeError_items : exn :=
  Exception "AttributeError" "'NoneType' object has no attribute 'items'".

Section Setup.

(** [homeassistant.util.slugify], a function of the host framework. *)
Variable slugify : string → string.

(** One turn of the loop over [domain_data.get("devices").items()]: the two
    constructors, then [entities.extend([scene_selector, trigger_button])]. *)
Definition setup_device (acc : list Entity * Heap) (item : string * nat)
  : list Entity * Heap :=
  let '(entities, h) := acc in
  let '(device_id, ref) := item in
  let coordinator := h ref in
  let device_name := data_device_name coordinator in
  let '(scene_selector, co) :=
    Sel.__init__ (slugify device_name +:+ "_selected_scene") device_id
      (attrs coordinator) in
  let h := heap_set h ref {| attrs := co; data_device_name := device_name |} in
  let trigger_button :=
    Btn.__init__ (slugify device_name +:+ "_trigger_scene") device_id in
  (entities ++ [SceneSelector scene_selector ref; TriggerButton trigger_button ref],
   h).

(** [devices] is [domain_data.get("devices")]: [None] when the key is
    missing, else the items of the dict in iteration order.  On return the
    outcome carries the list passed to the one [async_add_entities] call. *)
Definition async_setup_entry (devices : option (list (string * nat)))
    (h : Heap) : Outcome (list Entity) * Heap :=
  match devices with
  | None => (Raised AttributeError_items, h)
  | Some items =>
      let '(entities, h) := foldl setup_device ([], h) items in
      (Returned entities, h)
  end.

(** The pair of entities the loop builds for one device. *)
Definition entities_of_device (h : Heap) (item : string * nat) : list Entity :=
  let name := data_device_name (h item.2) in
  [SceneSelector
     {| Sel.unique_id := slugify name +:+ "_selected_scene";
        Sel.device_id := item.1; Sel._scenes := [];
        Sel._selected_scene_name := None; Sel._attr_options := [];
        Sel._attr_name := "Selected Scene" |} item.2;
   TriggerButton
     {| Btn.unique_id := slugify name +:+ "_trigger_scene";
        Btn.device_id := item.1; Btn._attr_name := "Trigger Scene" |} item.2].

End Setup.

(** The entities handed to [async_add_entities]: none when the setup raised
    before the call. *)
Definition added_entities (result : Outcome (list Entity) * Heap) : list Entity :=
  match result.1 with
  | Returned entities => entities
  | Raised _ => []
  end.

(** What a button or a selector can read of a coordinator object is the
    same in [o'] as in [o], except that the dict may have come to exist. *)
Definition same_for_entities (o o' : CoordinatorObject) : Prop :=
  data_device_name o' = data_device_name o ∧
  cloud_api (attrs o') = cloud_api (attrs o) ∧
  user_data (attrs o') = user_data (attrs o) ∧
  (∀ dev, selection_of (attrs o') dev = selection_of (attrs o) dev) ∧
  (is_Some (selected_scenes (attrs o)) → attrs o' = attrs o).

(** ** Invariants of a selector *)

(** The options shown are the names of the cached scenes, in order. *)
Definition options_match_scenes (s : Sel.t) : Prop :=
  Sel._attr_options s = name <$> Sel._scenes s.

(** ** Two devices to set up *)

Module DemoSetup.

Definition slug (s : string) : string := s.

(** Coordinator 0 belongs to a vacuum named [s7] and has no dict yet;
    coordinator 1 belongs to [q5] and already holds a selection. *)
Definition heap (api : CloudApi) : Heap :=
  λ r, match r with
       | 0 => {| attrs := Demo.coordinator_of api None;
                 data_device_name := "s7" |}
       | _ => {| attrs := Demo.coordinator_of api
                            (Some {[ "dev2" := Some "C" ]});
                 data_device_name := "q5" |}
       end.

Definition devices : list (string * nat) := [("dev1", 0); ("dev2", 1)].

End DemoSetup.

(** * Properties *)

(** Running a method symbolically: expose the statements, then follow the
    branch the hypotheses select. *)
Ltac py_unfold :=
  cbv beta iota delta
    [bind ret raise try_except emit get_self set_self modify_self
     get_coordinator set_coordinator await_get_scenes await_execute_scene
     selected_scenes_setitem async_write_ha_state
     _LOGGER_info _LOGGER_warning _LOGGER_error
     Btn.async_press Btn.int_scene_id int
     Sel._fetch_scenes Sel.async_added_to_hass Sel.async_select_option];
  simpl.

Ltac py_take H := rewrite H; py_unfold.

Ltac py_same_trace := unfold after; simpl; rewrite <- ?app_assoc; reflexivity.

(** ** The trace observers over appended events *)

Lemma executed_app tr evs : executed (tr ++ evs) = executed tr ++ executed evs.
Proof. apply omap_app. Qed.

Lemma fetched_app tr evs : fetched (tr ++ evs) = fetched tr ++ fetched evs.
Proof. apply omap_app. Qed.

Lemma logged_app tr evs : logged (tr ++ evs) = logged tr ++ logged evs.
Proof. apply omap_app. Qed.

(** ** The name-to-id scan *)

Lemma scan_scene_id_first (wanted : string) (before : list Scene) (sc : Scene)
    (rest : list Scene) (not_found : option Z) :
  Forall (λ x, name x ≠ wanted) before →
  name sc = wanted →
  scan_scene_id (Some wanted) (before ++ sc :: rest) not_found = Some (id sc).
Proof.
  intros Hbefore Hsc.
  induction Hbefore as [|x before Hx _ IH]; simpl.
  - rewrite bool_decide_eq_true_2; [done | by rewrite Hsc].
  - rewrite bool_decide_eq_false_2; [exact IH | congruence].
Qed.

Lemma scan_scene_id_absent (wanted : option string) (scenes : list Scene)
    (not_found : option Z) :
  Forall (λ x, Some (name x) ≠ wanted) scenes →
  scan_scene_id wanted scenes not_found = not_found.
Proof.
  induction 1 as [|x scenes Hx _ IH]; simpl; [done|].
  by rewrite bool_decide_eq_false_2.
Qed.

(** ** The five ways a press can go *)

Section Press.
Variable w : World Btn.t.

Let dev := Btn.device_id (self w).
Let ud := user_data (coordinator w).
Let scene_name := selection_of (coordinator w) dev.

Lemma press_without_selection :
  truthy_opt_str scene_name = false →
  Btn.async_press w = (Returned (), after w [warn_no_scene]).
Proof.
  subst scene_name dev. destruct w as [s co tr]; unfold selection_of; simpl.
  intros Hsel. py_unfold. py_take Hsel. py_same_trace.
Qed.

Lemma press_fetch_raises (err : exn) :
  truthy_opt_str scene_name = true →
  scenes_answer Btn.device_id w = inl err →
  Btn.async_press w =
    (Returned (),
     after w [CallGetScenes ud dev; error_fetching err; warn_no_scene]).
Proof.
  subst scene_name dev ud. destruct w as [s co tr].
  unfold scenes_answer, selection_of; simpl.
  intros Hsel Hans. py_unfold. py_take Hsel. py_take Hans. py_same_trace.
Qed.

Lemma press_without_id (scenes : list Scene) :
  truthy_opt_str scene_name = true →
  scenes_answer Btn.device_id w = inr scenes →
  truthy_opt_int (scan_scene_id scene_name scenes None) = false →
  Btn.async_press w =
    (Returned (), after w [CallGetScenes ud dev; warn_no_scene]).
Proof.
  subst scene_name dev ud. destruct w as [s co tr].
  unfold scenes_answer, selection_of; simpl.
  intros Hsel Hans Hid. py_unfold. py_take Hsel. py_take Hans. py_take Hid.
  py_same_trace.
Qed.

Lemma press_execute_returns (scenes : list Scene) (scene_id : Z) :
  truthy_opt_str scene_name = true →
  scenes_answer Btn.device_id w = inr scenes →
  scan_scene_id scene_name scenes None = Some scene_id →
  scene_id ≠ 0%Z →
  execute_answer w scene_id = inr () →
  Btn.async_press w =
    (Returned (),
     after w [CallGetScenes ud dev; CallExecuteScene ud scene_id;
              info_executed scene_id]).
Proof.
  subst scene_name dev ud. destruct w as [s co tr].
  unfold scenes_answer, execute_answer, selection_of; simpl.
  intros Hsel Hans Hid Hnz Hexec. apply Z.eqb_neq in Hnz.
  py_unfold. py_take Hsel. py_take Hans. py_take Hid. py_take Hnz.
  py_take Hexec. py_same_trace.
Qed.

Lemma press_execute_raises (scenes : list Scene) (scene_id : Z) (err : exn) :
  truthy_opt_str scene_name = true →
  scenes_answer Btn.device_id w = inr scenes →
  scan_scene_id scene_name scenes None = Some scene_id →
  scene_id ≠ 0%Z →
  execute_answer w scene_id = inl err →
  Btn.async_press w =
    (Raised err,
     after w [CallGetScenes ud dev; CallExecuteScene ud scene_id;
              error_executing scene_id err]).
Proof.
  subst scene_name dev ud. destruct w as [s co tr].
  unfold scenes_answer, execute_answer, selection_of; simpl.
  intros Hsel Hans Hid Hnz Hexec. apply Z.eqb_neq in Hnz.
  py_unfold. py_take Hsel. py_take Hans. py_take Hid. py_take Hnz.
  py_take Hexec. py_same_trace.
Qed.

End Press.

Lemma press_cases (w : World Btn.t) : PressCase w (Btn.async_press w).
Proof.
  destruct (truthy_opt_str (selection_of (coordinator w) (Btn.device_id (self w))))
    eqn:Hsel.
  2: { rewrite press_without_selection by done. by constructor. }
  destruct (scenes_answer Btn.device_id w) as [err|scenes] eqn:Hans.
  { erewrite press_fetch_raises by done. by constructor. }
  destruct (truthy_opt_int
              (scan_scene_id (selection_of (coordinator w) (Btn.device_id (self w)))
                 scenes None)) eqn:Hid.
  2: { erewrite press_without_id by done. by econstructor. }
  destruct (scan_scene_id (selection_of (coordinator w) (Btn.device_id (self w)))
              scenes None) as [scene_id|] eqn:Hscan; [|done].
  assert (scene_id ≠ 0%Z) as Hnz.
  { intros ->. discriminate Hid. }
  destruct (execute_answer w scene_id) as [err|[]] eqn:Hexec.
  - erewrite press_execute_raises by done. by econstructor.
  - erewrite press_execute_returns by done. by econstructor.
Qed.

(** A press never touches the coordinator or the button, and only adds to
    the trace. *)
Lemma press_frame (w : World Btn.t) :
  ∃ evs, (Btn.async_press w).2 = after w evs.
Proof. destruct (press_cases w); simpl; eauto. Qed.

(** ** The selector's methods *)

Lemma fetch_scenes_returns (w : World Sel.t) d (scenes : list Scene) :
  selected_scenes (coordinator w) = Some d →
  scenes_answer Sel.device_id w = inr scenes →
  let chosen :=
    match scenes with
    | scene0 :: _ => Some (name scene0)
    | [] => Sel._selected_scene_name (self w)
    end in
  Sel._fetch_scenes w =
    (Returned (),
     mkWorld
       (Sel.with__selected_scene_name chosen
          (Sel.with__attr_options (name <$> scenes)
             (Sel.with__scenes scenes (self w))))
       {| cloud_api := cloud_api (coordinator w);
          user_data := user_data (coordinator w);
          selected_scenes := Some (<[Sel.device_id (self w) := chosen]> d) |}
       (trace w ++ [CallGetScenes (user_data (coordinator w)) (Sel.device_id (self w));
                    WriteHaState])).
Proof.
  destruct w as [s co tr]; unfold scenes_answer; simpl.
  intros Hd Hans. py_unfold. py_take Hans.
  destruct scenes as [|scene0 others]; py_unfold; py_take Hd; py_same_trace.
Qed.

Lemma fetch_scenes_raises (w : World Sel.t) (err : exn) :
  scenes_answer Sel.device_id w = inl err →
  Sel._fetch_scenes w =
    (Raised err,
     after w [CallGetScenes (user_data (coordinator w)) (Sel.device_id (self w))]).
Proof.
  destruct w as [s co tr]; unfold scenes_answer; simpl.
  intros Hans. py_unfold. py_take Hans. py_same_trace.
Qed.

Lemma select_option_returns (w : World Sel.t) d (option : string) :
  selected_scenes (coordinator w) = Some d →
  Sel.async_select_option option w =
    (Returned (),
     mkWorld
       (Sel.with__selected_scene_name (Some option) (self w))
       {| cloud_api := cloud_api (coordinator w);
          user_data := user_data (coordinator w);
          selected_scenes := Some (<[Sel.device_id (self w) := Some option]> d) |}
       (trace w ++ [WriteHaState])).
Proof.
  destruct w as [s co tr]; simpl.
  intros Hd. py_unfold. py_take Hd. py_same_trace.
Qed.

(** The dict exists once a selector has been constructed, and no method of
    the file removes it. *)
Lemma init_creates_selected_scenes unique_id device_id co :
  is_Some (selected_scenes (Sel.__init__ unique_id device_id co).2).
Proof. unfold Sel.__init__; simpl. destruct (selected_scenes co) eqn:E; rewrite ?E; eauto. Qed.

Lemma fetch_scenes_keeps_selected_scenes (w : World Sel.t) :
  is_Some (selected_scenes (coordinator w)) →
  is_Some (selected_scenes (coordinator (Sel._fetch_scenes w).2)).
Proof.
  intros [d Hd].
  destruct (scenes_answer Sel.device_id w) as [err|scenes] eqn:Hans.
  - rewrite (fetch_scenes_raises w err Hans); simpl. eauto.
  - rewrite (fetch_scenes_returns w d scenes Hd Hans); simpl. eauto.
Qed.

Lemma select_option_keeps_selected_scenes (w : World Sel.t) (option : string) :
  is_Some (selected_scenes (coordinator w)) →
  is_Some (selected_scenes (coordinator (Sel.async_select_option option w).2)).
Proof.
  intros [d Hd]. rewrite (select_option_returns w d option Hd); simpl. eauto.
Qed.

Lemma press_keeps_coordinator (w : World Btn.t) :
  coordinator (Btn.async_press w).2 = coordinator w.
Proof. destruct (press_frame w) as [evs ->]. reflexivity. Qed.

(** After a fetch that found scenes, the selector's own scan resolves the
    default selection to the id of the first scene. *)
Lemma get_selected_scene_id_after_fetch (w : World Sel.t) d
    (first : Scene) (others : list Scene) :
  selected_scenes (coordinator w) = Some d →
  scenes_answer Sel.device_id w = inr (first :: others) →
  Sel.get_selected_scene_id (self (Sel._fetch_scenes w).2) = Some (id first).
Proof.
  intros Hd Hans. rewrite (fetch_scenes_returns w d _ Hd Hans); simpl.
  unfold Sel.get_selected_scene_id; simpl. by rewrite bool_decide_eq_true_2.
Qed.

Lemma selected_scenes_setitem_lookup (co : Coordinator) d dev v :
  selected_scenes co = Some (<[dev := v]> d) →
  selection_of co dev = v.
Proof.
  intros H. unfold selection_of, dict_get. rewrite H.
  by rewrite lookup_insert_eq.
Qed.

(** * The selector *)

(** C1.  When the cloud answers the selector's fetch with the non-empty list
    [first :: others], [_fetch_scenes] returns, the options are exactly the
    names of the fetched scenes in their order, the current option is the
    name of the first scene, and the coordinator's dict holds that name
    under the device id. *)
Theorem fetch_scenes_defaults_to_first (w : World Sel.t) d
    (first : Scene) (others : list Scene) :
  selected_scenes (coordinator w) = Some d →
  scenes_answer Sel.device_id w = inr (first :: others) →
  (Sel._fetch_scenes w).1 = Returned () ∧
  Sel._attr_options (self (Sel._fetch_scenes w).2) = (name <$> first :: others) ∧
  Sel.current_option (self (Sel._fetch_scenes w).2) = Some (name first) ∧
  selected_scenes (coordinator (Sel._fetch_scenes w).2) =
    Some (<[Sel.device_id (self w) := Some (name first)]> d) ∧
  selection_of (coordinator (Sel._fetch_scenes w).2) (Sel.device_id (self w)) =
    Some (name first).
Proof.
  intros Hd Hans. rewrite (fetch_scenes_returns w d _ Hd Hans); simpl.
  repeat split. by eapply selected_scenes_setitem_lookup.
Qed.

Lemma fetch_scenes_defaults_to_first_witness :
  let w := Demo.select_world (Demo.cloud (inr Demo.scenes_ABC) (inr ())) in
  selected_scenes (coordinator w) = Some ∅ ∧
  scenes_answer Sel.device_id w = inr Demo.scenes_ABC ∧
  (Sel._fetch_scenes w).1 = Returned () ∧
  Sel._attr_options (self (Sel._fetch_scenes w).2) = ["A"; "B"; "C"] ∧
  Sel.current_option (self (Sel._fetch_scenes w).2) = Some "A" ∧
  selected_scenes (coordinator (Sel._fetch_scenes w).2) =
    Some (<["dev1" := Some "A"]> ∅) ∧
  selection_of (coordinator (Sel._fetch_scenes w).2) "dev1" = Some "A".
Proof.
  intros w. split; [reflexivity|]. split; [reflexivity|].
  apply (fetch_scenes_defaults_to_first w ∅ Demo.scene_A
           [Demo.scene_B; Demo.scene_C]); reflexivity.
Defined.

(** C2.  [async_select_option] accepts every string: it returns, the current
    option is that string and the coordinator's dict maps the device id to
    it.  Nothing is asked of the string; the options list is not consulted
    and stays as it was. *)
Theorem select_option_stores_any_string (w : World Sel.t) d (option : string) :
  selected_scenes (coordinator w) = Some d →
  (Sel.async_select_option option w).1 = Returned () ∧
  Sel.current_option (self (Sel.async_select_option option w).2) = Some option ∧
  selected_scenes (coordinator (Sel.async_select_option option w).2) =
    Some (<[Sel.device_id (self w) := Some option]> d) ∧
  selection_of (coordinator (Sel.async_select_option option w).2)
    (Sel.device_id (self w)) = Some option ∧
  Sel._attr_options (self (Sel.async_select_option option w).2) =
    Sel._attr_options (self w).
Proof.
  intros Hd. rewrite (select_option_returns w d _ Hd); simpl.
  repeat split. by eapply selected_scenes_setitem_lookup.
Qed.

Lemma select_option_stores_any_string_witness :
  let w := (Sel._fetch_scenes
              (Demo.select_world (Demo.cloud (inr Demo.scenes_ABC) (inr ())))).2 in
  Sel._attr_options (self w) = ["A"; "B"; "C"] ∧
  selected_scenes (coordinator w) = Some (<["dev1" := Some "A"]> ∅) ∧
  (Sel.async_select_option "Z" w).1 = Returned () ∧
  Sel.current_option (self (Sel.async_select_option "Z" w).2) = Some "Z" ∧
  selected_scenes (coordinator (Sel.async_select_option "Z" w).2) =
    Some (<["dev1" := Some "Z"]> (<["dev1" := Some "A"]> ∅)) ∧
  selection_of (coordinator (Sel.async_select_option "Z" w).2) "dev1" = Some "Z" ∧
  Sel._attr_options (self (Sel.async_select_option "Z" w).2) = ["A"; "B"; "C"].
Proof.
  intros w. split; [reflexivity|]. split; [reflexivity|].
  apply (select_option_stores_any_string w (<["dev1" := Some "A"]> ∅) "Z").
  reflexivity.
Defined.

(** C8.  When [get_scenes] raises during the fetch on attachment,
    [async_added_to_hass] raises that same exception.  Nothing is logged, the
    selector and the coordinator are left as they were, and the only outside
    calls made are the parent's hook and the failed fetch. *)
Theorem added_to_hass_propagates_fetch_failure (w : World Sel.t) (err : exn) :
  scenes_answer Sel.device_id w = inl err →
  Sel.async_added_to_hass w =
    (Raised err,
     after w [SuperAddedToHass;
              CallGetScenes (user_data (coordinator w)) (Sel.device_id (self w))]) ∧
  logged (trace (Sel.async_added_to_hass w).2) = logged (trace w).
Proof.
  intros Hans.
  assert (Sel.async_added_to_hass w =
    (Raised err,
     after w [SuperAddedToHass;
              CallGetScenes (user_data (coordinator w)) (Sel.device_id (self w))]))
    as ->.
  { destruct w as [s co tr]; unfold scenes_answer in Hans; simpl in *.
    py_unfold. py_take Hans. py_same_trace. }
  split; [done|]. simpl. rewrite logged_app; simpl. by rewrite app_nil_r.
Qed.

Lemma added_to_hass_propagates_fetch_failure_witness :
  let w := Demo.select_world (Demo.cloud (inl Demo.err_timeout) (inr ())) in
  scenes_answer Sel.device_id w = inl Demo.err_timeout ∧
  Sel.async_added_to_hass w =
    (Raised Demo.err_timeout,
     after w [SuperAddedToHass; CallGetScenes (Credentials "token") "dev1"]) ∧
  logged (trace (Sel.async_added_to_hass w).2) = logged (trace w).
Proof.
  intros w. split; [reflexivity|].
  apply (added_to_hass_propagates_fetch_failure w Demo.err_timeout).
  reflexivity.
Defined.

(** C10.  Whatever list the initial fetch receives, once it has returned the
    coordinator's dict has an entry for the device id; when the list is
    empty the entry is there with the value [None]. *)
Theorem fetch_scenes_always_records_entry (w : World Sel.t) d
    (scenes : list Scene) :
  Sel._selected_scene_name (self w) = None →
  selected_scenes (coordinator w) = Some d →
  scenes_answer Sel.device_id w = inr scenes →
  (Sel._fetch_scenes w).1 = Returned () ∧
  ∃ d', selected_scenes (coordinator (Sel._fetch_scenes w).2) = Some d' ∧
        Sel.device_id (self w) ∈ dom d' ∧
        (scenes = [] → d' !! Sel.device_id (self w) = Some None).
Proof.
  intros Hfresh Hd Hans. rewrite (fetch_scenes_returns w d _ Hd Hans); simpl.
  split; [done|]. eexists; split; [done|]. split.
  - rewrite dom_insert_L. set_solver.
  - intros ->. by rewrite lookup_insert_eq, Hfresh.
Qed.

Lemma fetch_scenes_always_records_entry_witness :
  let w := Demo.select_world (Demo.cloud (inr []) (inr ())) in
  Sel._selected_scene_name (self w) = None ∧
  selected_scenes (coordinator w) = Some ∅ ∧
  scenes_answer Sel.device_id w = inr [] ∧
  (Sel._fetch_scenes w).1 = Returned () ∧
  ∃ d', selected_scenes (coordinator (Sel._fetch_scenes w).2) = Some d' ∧
        "dev1" ∈ dom d' ∧
        (@nil Scene = [] → d' !! "dev1" = Some None).
Proof.
  intros w. split; [reflexivity|]. split; [reflexivity|]. split; [reflexivity|].
  apply (fetch_scenes_always_records_entry w ∅ []); reflexivity.
Defined.

(** * The trigger button *)




(** With two scenes of the selected name, the earlier one is executed. *)
Example press_with_duplicate_names :
  executed
    (trace
       (Btn.async_press
          (Demo.button_world
             (Demo.cloud
                (inr [Demo.scene_A; {| id := 7; name := "B" |}; Demo.scene_B])
                (inr ()))
             (Demo.chose (Some "B")))).2) = [7%Z].
Proof. vm_compute. reflexivity. Qed.

(** C4.  A press with no selection for the device (the coordinator has no
    [selected_scenes] attribute, or the dict has no entry for the device, or
    the entry is [None] or the empty string) returns without raising; it logs
    one warning and makes no other outside call: no [get_scenes], no
    [execute_scene]. *)
Theorem press_without_selection_only_warns (w : World Btn.t) :
  (selected_scenes (coordinator w) = None ∨
   ∃ d, selected_scenes (coordinator w) = Some d ∧
        (d !! Btn.device_id (self w) = None ∨
         d !! Btn.device_id (self w) = Some None ∨
         d !! Btn.device_id (self w) = Some (Some ""))) →
  Btn.async_press w = (Returned (), after w [warn_no_scene]) ∧
  logged (trace (Btn.async_press w).2) = logged (trace w) ++ [WARNING] ∧
  executed (trace (Btn.async_press w).2) = executed (trace w) ∧
  fetched (trace (Btn.async_press w).2) = fetched (trace w).
Proof.
  intros Hnone.
  assert (truthy_opt_str
            (selection_of (coordinator w) (Btn.device_id (self w))) = false)
    as Hsel.
  { unfold selection_of, dict_get.
    destruct Hnone as [->|(d & -> & [->| [->| ->]])]; reflexivity. }
  rewrite (press_without_selection w Hsel); simpl.
  rewrite logged_app, executed_app, fetched_app; simpl.
  by rewrite !app_nil_r.
Qed.

Lemma press_without_selection_only_warns_witness :
  let w := Demo.button_world (Demo.cloud (inr Demo.scenes_ABC) (inr ()))
             (Some ∅) in
  (∃ d, selected_scenes (coordinator w) = Some d ∧
        d !! Btn.device_id (self w) = None) ∧
  Btn.async_press w = (Returned (), after w [warn_no_scene]) ∧
  logged (trace (Btn.async_press w).2) = logged (trace w) ++ [WARNING] ∧
  executed (trace (Btn.async_press w).2) = executed (trace w) ∧
  fetched (trace (Btn.async_press w).2) = fetched (trace w).
Proof.
  intros w. split.
  - exists ∅. split; reflexivity.
  - apply (press_without_selection_only_warns w).
    right. exists ∅. split; [reflexivity|]. left. reflexivity.
Defined.

(** C5.  When a press calls [execute_scene] and the call raises, the press
    logs one record at error level, carrying the scene id, the exception and
    the traceback, and then raises that same exception. *)
Theorem press_reraises_execute_failure (w : World Btn.t) (scene_id : Z)
    (err : exn) :
  executed (trace (Btn.async_press w).2) = executed (trace w) ++ [scene_id] →
  execute_answer w scene_id = inl err →
  Btn.async_press w =
    (Raised err,
     after w [CallGetScenes (user_data (coordinator w)) (Btn.device_id (self w));
              CallExecuteScene (user_data (coordinator w)) scene_id;
              error_executing scene_id err]) ∧
  logged (trace (Btn.async_press w).2) = logged (trace w) ++ [ERROR].
Proof.
  intros Hcalled Hexec.
  destruct (press_cases w) as [Hsel|e Hsel Hans|scenes Hsel Hans Hid
    |scenes i Hsel Hans Hid Hnz Hret|scenes i e Hsel Hans Hid Hnz Hraise];
    simpl in *; rewrite executed_app in Hcalled; simpl in Hcalled;
    apply app_inv_head in Hcalled; try discriminate Hcalled.
  - injection Hcalled as ->. congruence.
  - injection Hcalled as ->. assert (e = err) as -> by congruence.
    split; [done|]. by rewrite logged_app.
Qed.

Lemma press_reraises_execute_failure_witness :
  let w := Demo.button_world
             (Demo.cloud (inr Demo.scenes_ABC) (inl Demo.err_timeout))
             (Demo.chose (Some "B")) in
  executed (trace (Btn.async_press w).2) = executed (trace w) ++ [2%Z] ∧
  execute_answer w 2 = inl Demo.err_timeout ∧
  Btn.async_press w =
    (Raised Demo.err_timeout,
     after w [CallGetScenes (Credentials "token") "dev1";
              CallExecuteScene (Credentials "token") 2;
              error_executing 2 Demo.err_timeout]) ∧
  logged (trace (Btn.async_press w).2) = logged (trace w) ++ [ERROR].
Proof.
  intros w. split; [vm_compute; reflexivity|]. split; [reflexivity|].
  apply (press_reraises_execute_failure w 2 Demo.err_timeout).
  - vm_compute; reflexivity.
  - reflexivity.
Defined.

(** C6.  When a press calls [get_scenes] and the call raises, the exception
    is caught: the press logs it at error level, goes on to the warning of
    the branch without an id, and returns.  [execute_scene] is not called. *)
Theorem press_swallows_fetch_failure (w : World Btn.t) (err : exn) :
  fetched (trace (Btn.async_press w).2) =
    fetched (trace w) ++ [Btn.device_id (self w)] →
  scenes_answer Btn.device_id w = inl err →
  Btn.async_press w =
    (Returned (),
     after w [CallGetScenes (user_data (coordinator w)) (Btn.device_id (self w));
              error_fetching err; warn_no_scene]) ∧
  logged (trace (Btn.async_press w).2) = logged (trace w) ++ [ERROR; WARNING] ∧
  executed (trace (Btn.async_press w).2) = executed (trace w).
Proof.
  intros Hcalled Hans.
  destruct (press_cases w) as [Hsel|e Hsel Hans'|scenes Hsel Hans' Hid
    |scenes i Hsel Hans' Hid Hnz Hret|scenes i e Hsel Hans' Hid Hnz Hraise];
    simpl in *; try congruence.
  - rewrite fetched_app in Hcalled; simpl in Hcalled.
    apply app_inv_head in Hcalled. discriminate Hcalled.
  - assert (e = err) as -> by congruence.
    split; [done|]. rewrite logged_app, executed_app; simpl.
    by rewrite app_nil_r.
Qed.

Lemma press_swallows_fetch_failure_witness :
  let w := Demo.button_world (Demo.cloud (inl Demo.err_timeout) (inr ()))
             (Demo.chose (Some "B")) in
  fetched (trace (Btn.async_press w).2) = fetched (trace w) ++ ["dev1"] ∧
  scenes_answer Btn.device_id w = inl Demo.err_timeout ∧
  Btn.async_press w =
    (Returned (),
     after w [CallGetScenes (Credentials "token") "dev1";
              error_fetching Demo.err_timeout; warn_no_scene]) ∧
  logged (trace (Btn.async_press w).2) = logged (trace w) ++ [ERROR; WARNING] ∧
  executed (trace (Btn.async_press w).2) = executed (trace w).
Proof.
  intros w. split; [vm_compute; reflexivity|]. split; [reflexivity|].
  apply (press_swallows_fetch_failure w Demo.err_timeout).
  - vm_compute; reflexivity.
  - reflexivity.
Defined.

(** C7.  When the selected name is the name of no scene in the list the
    press fetches, the press finds no id: it fetches, logs the warning and
    returns, without calling [execute_scene] and without raising. *)
Theorem press_with_absent_name_does_nothing (w : World Btn.t) (wanted : string)
    (scenes : list Scene) :
  selection_of (coordinator w) (Btn.device_id (self w)) = Some wanted →
  truthy_str wanted = true →
  scenes_answer Btn.device_id w = inr scenes →
  wanted ∉ (name <$> scenes) →
  scan_scene_id (Some wanted) scenes None = None ∧
  Btn.async_press w =
    (Returned (),
     after w [CallGetScenes (user_data (coordinator w)) (Btn.device_id (self w));
              warn_no_scene]) ∧
  executed (trace (Btn.async_press w).2) = executed (trace w).
Proof.
  intros Hsel Htruthy Hans Habsent.
  assert (scan_scene_id (Some wanted) scenes None = None) as Hscan.
  { apply scan_scene_id_absent, Forall_forall. intros x Hx [= Heq].
    apply Habsent, list_elem_of_fmap. eauto. }
  split; [done|].
  erewrite press_without_id; [| by rewrite Hsel | done | by rewrite Hsel, Hscan].
  split; [done|]. simpl. rewrite executed_app; simpl. by rewrite app_nil_r.
Qed.

Lemma press_with_absent_name_does_nothing_witness :
  let w := Demo.button_world (Demo.cloud (inr Demo.scenes_ABC) (inr ()))
             (Demo.chose (Some "Z")) in
  selection_of (coordinator w) "dev1" = Some "Z" ∧
  scenes_answer Btn.device_id w = inr Demo.scenes_ABC ∧
  ("Z" ∉ (name <$> Demo.scenes_ABC)) ∧
  scan_scene_id (Some "Z") Demo.scenes_ABC None = None ∧
  Btn.async_press w =
    (Returned (),
     after w [CallGetScenes (Credentials "token") "dev1"; warn_no_scene]) ∧
  executed (trace (Btn.async_press w).2) = executed (trace w).
Proof.
  assert ("Z" ∉ (name <$> Demo.scenes_ABC)) as Habsent.
  { simpl. intros H. repeat (apply elem_of_cons in H as [H|H]; [discriminate H|]).
    by apply elem_of_nil in H. }
  intros w. split; [vm_compute; reflexivity|]. split; [reflexivity|].
  split; [exact Habsent|].
  apply (press_with_absent_name_does_nothing w "Z" Demo.scenes_ABC).
  - vm_compute; reflexivity.
  - reflexivity.
  - reflexivity.
  - exact Habsent.
Defined.

(** C9.  When the cloud answers the initial fetch with the empty list, the
    selector is left with no options and no current option, and the dict
    entry of the device is [None].  A press right after it only logs the
    warning; and every later press for which the cloud still answers the
    empty list returns without calling [execute_scene], whatever the dict
    holds for the device by then. *)
Theorem no_scenes_no_default_no_execution (w : World Sel.t) d :
  Sel._selected_scene_name (self w) = None →
  selected_scenes (coordinator w) = Some d →
  scenes_answer Sel.device_id w = inr [] →
  (Sel._fetch_scenes w).1 = Returned () ∧
  Sel._attr_options (self (Sel._fetch_scenes w).2) = [] ∧
  Sel.current_option (self (Sel._fetch_scenes w).2) = None ∧
  (∀ button : Btn.t,
     Btn.device_id button = Sel.device_id (self w) →
     Btn.async_press (with_self button (Sel._fetch_scenes w).2) =
       (Returned (),
        after (with_self button (Sel._fetch_scenes w).2) [warn_no_scene])) ∧
  (∀ later : World Btn.t,
     Btn.device_id (self later) = Sel.device_id (self w) →
     scenes_answer Btn.device_id later = inr [] →
     (Btn.async_press later).1 = Returned () ∧
     executed (trace (Btn.async_press later).2) = executed (trace later)).
Proof.
  intros Hfresh Hd Hans. rewrite (fetch_scenes_returns w d _ Hd Hans); simpl.
  repeat split; try done.
  - intros button Hdev. apply press_without_selection; simpl.
    unfold selection_of, dict_get; simpl.
    by rewrite Hdev, lookup_insert_eq, Hfresh.
  - destruct (press_cases later) as [Hsel|e Hsel Hans'|scenes Hsel Hans' Hid
      |scenes i Hsel Hans' Hid Hnz Hret|scenes i e Hsel Hans' Hid Hnz Hraise];
      simpl; try done.
    assert (scenes = []) as -> by congruence. discriminate Hid.
  - destruct (press_cases later) as [Hsel|e Hsel Hans'|scenes Hsel Hans' Hid
      |scenes i Hsel Hans' Hid Hnz Hret|scenes i e Hsel Hans' Hid Hnz Hraise];
      simpl; rewrite executed_app; simpl; rewrite ?app_nil_r; try done.
    + assert (scenes = []) as -> by congruence. discriminate Hid.
    + assert (scenes = []) as -> by congruence. discriminate Hid.
Qed.

Lemma no_scenes_no_default_no_execution_witness :
  let w := Demo.select_world (Demo.cloud (inr []) (inr ())) in
  let later := Demo.button_world (Demo.cloud (inr []) (inr ()))
                 (Demo.chose (Some "B")) in
  Sel._selected_scene_name (self w) = None ∧
  selected_scenes (coordinator w) = Some ∅ ∧
  scenes_answer Sel.device_id w = inr [] ∧
  Sel._attr_options (self (Sel._fetch_scenes w).2) = [] ∧
  Sel.current_option (self (Sel._fetch_scenes w).2) = None ∧
  scenes_answer Btn.device_id later = inr [] ∧
  (Btn.async_press later).1 = Returned () ∧
  executed (trace (Btn.async_press later).2) = executed (trace later).
Proof.
  intros w later.
  destruct (no_scenes_no_default_no_execution w ∅)
    as (_ & Hoptions & Hcurrent & _ & Hlater); [reflexivity ..|].
  destruct (Hlater later) as [Hreturned Hexecuted]; [reflexivity ..|].
  repeat split; try reflexivity; assumption.
Defined.

(** * Further properties of the scan and of a press *)

(** Shared by the theorems below: where a found id comes from. *)
Lemma scan_scene_id_found (wanted : option string) (scenes : list Scene)
    (i : Z) :
  scan_scene_id wanted scenes None = Some i →
  ∃ before sc rest,
    scenes = before ++ sc :: rest ∧
    Forall (λ x, Some (name x) ≠ wanted) before ∧
    Some (name sc) = wanted ∧ id sc = i.
Proof.
  induction scenes as [|x scenes IH]; simpl; [done|].
  case_bool_decide as Hx.
  - intros [= <-]. exists [], x, scenes. by repeat split.
  - intros (before & sc & rest & -> & Hbefore & Hsc & Hid)%IH.
    exists (x :: before), sc, rest. repeat split; try done.
    by constructor.
Qed.

(** X1.  The scan returns an id exactly when some scene carries the wanted
    name, and the id is then that of the earliest such scene. *)
Theorem scan_scene_id_Some_iff (wanted : option string) (scenes : list Scene)
    (i : Z) :
  scan_scene_id wanted scenes None = Some i ↔
  ∃ before sc rest,
    scenes = before ++ sc :: rest ∧
    Forall (λ x, Some (name x) ≠ wanted) before ∧
    Some (name sc) = wanted ∧ id sc = i.
Proof.
  split; [apply scan_scene_id_found|].
  intros (before & sc & rest & -> & Hbefore & Hsc & <-).
  induction Hbefore as [|x before Hx _ IH]; simpl.
  - by rewrite bool_decide_eq_true_2.
  - by rewrite bool_decide_eq_false_2.
Qed.

(** X2.  [get_selected_scene_id] answers [None] exactly when no cached scene
    carries the selected name; with nothing selected that is always so. *)
Theorem get_selected_scene_id_None_iff (s : Sel.t) :
  (Sel.get_selected_scene_id s = None ↔
   ∀ sc, sc ∈ Sel._scenes s → Some (name sc) ≠ Sel._selected_scene_name s) ∧
  (Sel._selected_scene_name s = None → Sel.get_selected_scene_id s = None).
Proof.
  assert (Sel.get_selected_scene_id s = None ↔
          ∀ sc, sc ∈ Sel._scenes s → Some (name sc) ≠ Sel._selected_scene_name s)
    as Hiff.
  { unfold Sel.get_selected_scene_id.
    induction (Sel._scenes s) as [|x scenes IH]; simpl.
    - split; [|done]. intros _ sc Hsc. by apply elem_of_nil in Hsc.
    - case_bool_decide as Hx.
      + split; [done|]. intros Hall. destruct (Hall x); [apply elem_of_cons|]; auto.
      + rewrite IH. split.
        * intros Hall sc [->|Hsc]%elem_of_cons; auto.
        * intros Hall sc Hsc. apply Hall, elem_of_cons. auto. }
  split; [exact Hiff|].
  intros Hnone. apply Hiff. intros sc _. by rewrite Hnone.
Qed.

(** Shared by the theorems below: a press with a name selected, a list
    fetched and a non-zero id found calls [execute_scene] with that id,
    whether the call then returns or raises. *)
Lemma press_calls_execute (w : World Btn.t) (scenes : list Scene) (i : Z) :
  truthy_opt_str (selection_of (coordinator w) (Btn.device_id (self w))) = true →
  scenes_answer Btn.device_id w = inr scenes →
  scan_scene_id (selection_of (coordinator w) (Btn.device_id (self w)))
    scenes None = Some i →
  i ≠ 0%Z →
  fetched (trace (Btn.async_press w).2) =
    fetched (trace w) ++ [Btn.device_id (self w)] ∧
  executed (trace (Btn.async_press w).2) = executed (trace w) ++ [i].
Proof.
  intros Hsel Hans Hid Hnz.
  destruct (execute_answer w i) as [err|[]] eqn:Hexec.
  - erewrite press_execute_raises by done; simpl.
    by rewrite fetched_app, executed_app.
  - erewrite press_execute_returns by done; simpl.
    by rewrite fetched_app, executed_app.
Qed.

(** X3.  Whatever a press executes is the non-zero id of a scene in the list
    it has just fetched, and that scene carries the name selected for the
    button's device. *)
Theorem press_executes_only_a_selected_scene (w : World Btn.t) (i : Z) :
  executed (trace (Btn.async_press w).2) = executed (trace w) ++ [i] →
  i ≠ 0%Z ∧
  ∃ wanted scenes sc,
    selection_of (coordinator w) (Btn.device_id (self w)) = Some wanted ∧
    scenes_answer Btn.device_id w = inr scenes ∧
    sc ∈ scenes ∧ name sc = wanted ∧ id sc = i.
Proof.
  intros Hcalled.
  assert (∀ scenes j,
    truthy_opt_str (selection_of (coordinator w) (Btn.device_id (self w))) = true →
    scenes_answer Btn.device_id w = inr scenes →
    scan_scene_id (selection_of (coordinator w) (Btn.device_id (self w)))
      scenes None = Some j →
    ∃ wanted scenes sc,
      selection_of (coordinator w) (Btn.device_id (self w)) = Some wanted ∧
      scenes_answer Btn.device_id w = inr scenes ∧
      sc ∈ scenes ∧ name sc = wanted ∧ id sc = j) as Hfound.
  { intros scenes j Hsel Hans
      (before & sc & rest & -> & _ & Hsc & Hid)%scan_scene_id_found.
    exists (name sc), (before ++ sc :: rest), sc. repeat split; try done.
    apply elem_of_app. right. apply elem_of_cons. by left. }
  destruct (press_cases w) as [Hsel|e Hsel Hans|scenes Hsel Hans Hid
    |scenes j Hsel Hans Hid Hnz Hret|scenes j e Hsel Hans Hid Hnz Hraise];
    simpl in *; rewrite executed_app in Hcalled; simpl in Hcalled;
    apply app_inv_head in Hcalled; try discriminate Hcalled;
    injection Hcalled as ->; split; eauto.
Qed.

Lemma press_executes_only_a_selected_scene_witness :
  let w := Demo.button_world (Demo.cloud (inr Demo.scenes_ABC) (inr ()))
             (Demo.chose (Some "B")) in
  executed (trace (Btn.async_press w).2) = executed (trace w) ++ [2%Z] ∧
  2%Z ≠ 0%Z ∧
  ∃ wanted scenes sc,
    selection_of (coordinator w) (Btn.device_id (self w)) = Some wanted ∧
    scenes_answer Btn.device_id w = inr scenes ∧
    sc ∈ scenes ∧ name sc = wanted ∧ id sc = 2%Z.
Proof.
  intros w. split; [vm_compute; reflexivity|].
  apply (press_executes_only_a_selected_scene w 2).
  vm_compute; reflexivity.
Defined.

(** X4.  A press makes at most one [get_scenes] call, for the button's own
    device, and at most one [execute_scene] call, never without having
    fetched first. *)
Theorem press_calls_at_most_once (w : World Btn.t) :
  ∃ evs,
    (Btn.async_press w).2 = after w evs ∧
    (fetched evs = [] ∨ fetched evs = [Btn.device_id (self w)]) ∧
    (executed evs = [] ∨
     ∃ i, executed evs = [i] ∧ fetched evs = [Btn.device_id (self w)]).
Proof.
  destruct (press_cases w); simpl; eexists; (split; [reflexivity|]); simpl;
    eauto 6.
Qed.

(** X5.  A press raises only when its [execute_scene] call raised: an absent
    selection, a failed fetch and a name without match all end in a normal
    return. *)
Theorem press_raises_only_from_execute (w : World Btn.t) (err : exn) :
  (Btn.async_press w).1 = Raised err →
  ∃ i, executed (trace (Btn.async_press w).2) = executed (trace w) ++ [i] ∧
       execute_answer w i = inl err.
Proof.
  destruct (press_cases w) as [Hsel|e Hsel Hans|scenes Hsel Hans Hid
    |scenes j Hsel Hans Hid Hnz Hret|scenes j e Hsel Hans Hid Hnz Hraise];
    simpl; try discriminate.
  intros [= ->]. exists j. by rewrite executed_app.
Qed.

Lemma press_raises_only_from_execute_witness :
  let w := Demo.button_world
             (Demo.cloud (inr Demo.scenes_ABC) (inl Demo.err_timeout))
             (Demo.chose (Some "B")) in
  (Btn.async_press w).1 = Raised Demo.err_timeout ∧
  ∃ i, executed (trace (Btn.async_press w).2) = executed (trace w) ++ [i] ∧
       execute_answer w i = inl Demo.err_timeout.
Proof.
  intros w. split; [vm_compute; reflexivity|].
  apply (press_raises_only_from_execute w Demo.err_timeout).
  vm_compute; reflexivity.
Defined.

(** X6.  A press reads and never writes: the button, the coordinator and so
    the selection of every device are as before, in every outcome. *)
Theorem press_changes_nothing_but_the_trace (w : World Btn.t) :
  self (Btn.async_press w).2 = self w ∧
  coordinator (Btn.async_press w).2 = coordinator w ∧
  (∀ dev, selection_of (coordinator (Btn.async_press w).2) dev =
          selection_of (coordinator w) dev) ∧
  ∃ evs, trace (Btn.async_press w).2 = trace w ++ evs.
Proof.
  destruct (press_frame w) as [evs ->]; simpl. repeat split. by exists evs.
Qed.

(** X7.  The selection is not used up: pressing again, with the cloud
    answering as before, has the same outcome and makes the same outside
    calls a second time. *)
Theorem press_again_repeats (w : World Btn.t) :
  ∃ evs,
    Btn.async_press w = ((Btn.async_press w).1, after w evs) ∧
    Btn.async_press (Btn.async_press w).2 =
      ((Btn.async_press w).1, after (after w evs) evs).
Proof.
  destruct (press_cases w) as [Hsel|e Hsel Hans|scenes Hsel Hans Hid
    |scenes j Hsel Hans Hid Hnz Hret|scenes j e Hsel Hans Hid Hnz Hraise];
    simpl; eexists; (split; [reflexivity|]).
  - exact (press_without_selection (after w _) Hsel).
  - exact (press_fetch_raises (after w _) e Hsel Hans).
  - exact (press_without_id (after w _) scenes Hsel Hans Hid).
  - exact (press_execute_returns (after w _) scenes j Hsel Hans Hid Hnz Hret).
  - exact (press_execute_raises (after w _) scenes j e Hsel Hans Hid Hnz Hraise).
Qed.

(** * Further properties of the selector *)

(** The two methods on a coordinator without the [selected_scenes]
    attribute: the assignments to [self] made before the dict is touched
    stay, then the attribute lookup raises. *)
Lemma fetch_scenes_without_attribute (w : World Sel.t) (scenes : list Scene) :
  selected_scenes (coordinator w) = None →
  scenes_answer Sel.device_id w = inr scenes →
  Sel._fetch_scenes w =
    (Raised AttributeError_selected_scenes,
     mkWorld
       (Sel.with__selected_scene_name
          match scenes with
          | scene0 :: _ => Some (name scene0)
          | [] => Sel._selected_scene_name (self w)
          end
          (Sel.with__attr_options (name <$> scenes)
             (Sel.with__scenes scenes (self w))))
       (coordinator w)
       (trace w ++ [CallGetScenes (user_data (coordinator w))
                      (Sel.device_id (self w))])).
Proof.
  destruct w as [s co tr]; unfold scenes_answer; simpl.
  intros Hd Hans. py_unfold. py_take Hans.
  destruct scenes as [|scene0 others]; py_unfold; py_take Hd; py_same_trace.
Qed.

Lemma select_option_without_attribute (w : World Sel.t) (option : string) :
  selected_scenes (coordinator w) = None →
  Sel.async_select_option option w =
    (Raised AttributeError_selected_scenes,
     mkWorld (Sel.with__selected_scene_name (Some option) (self w))
       (coordinator w) (trace w)).
Proof.
  destruct w as [s co tr]; simpl.
  intros Hd. py_unfold. py_take Hd. reflexivity.
Qed.

(** X8.  Selection and trigger compose: after [async_select_option option]
    with a non-empty [option], a press of the same device's button on the
    same coordinator executes the first fetched scene of that name, when its
    id is not zero. *)
Theorem select_then_press_executes (w : World Sel.t) d (option : string)
    (button : Btn.t) (before : list Scene) (sc : Scene) (rest : list Scene) :
  selected_scenes (coordinator w) = Some d →
  truthy_str option = true →
  Btn.device_id button = Sel.device_id (self w) →
  scenes_answer Btn.device_id
    (with_self button (Sel.async_select_option option w).2) =
    inr (before ++ sc :: rest) →
  Forall (λ x, name x ≠ option) before →
  name sc = option →
  id sc ≠ 0%Z →
  executed
    (trace (Btn.async_press
              (with_self button (Sel.async_select_option option w).2)).2) =
  executed (trace (Sel.async_select_option option w).2) ++ [id sc].
Proof.
  intros Hd Htruthy Hdev Hans Hbefore Hsc Hnz.
  rewrite (select_option_returns w d option Hd) in *; simpl in *.
  set (w1 := with_self button _) in *.
  assert (selection_of (coordinator w1) (Btn.device_id (self w1)) = Some option)
    as Hsel.
  { subst w1; simpl. rewrite Hdev.
    by eapply selected_scenes_setitem_lookup. }
  apply (press_calls_execute w1 (before ++ sc :: rest) (id sc)).
  - by rewrite Hsel.
  - exact Hans.
  - rewrite Hsel. by apply scan_scene_id_first.
  - exact Hnz.
Qed.

Lemma select_then_press_executes_witness :
  let w := Demo.select_world (Demo.cloud (inr Demo.scenes_ABC) (inr ())) in
  let button := Btn.__init__ "s7_trigger_scene" "dev1" in
  selected_scenes (coordinator w) = Some ∅ ∧
  executed
    (trace (Btn.async_press
              (with_self button (Sel.async_select_option "C" w).2)).2) =
  executed (trace (Sel.async_select_option "C" w).2) ++ [3%Z].
Proof.
  intros w button. split; [reflexivity|].
  apply (select_then_press_executes w ∅ "C" button
           [Demo.scene_A; Demo.scene_B] Demo.scene_C []).
  - reflexivity.
  - reflexivity.
  - reflexivity.
  - reflexivity.
  - repeat constructor; discriminate.
  - reflexivity.
  - discriminate.
Defined.

(** X9.  The empty string is accepted as an option and stored, and it turns
    the trigger off: the press that follows only logs the warning, without
    fetching. *)
Theorem select_empty_string_disables_press (w : World Sel.t) d (button : Btn.t) :
  selected_scenes (coordinator w) = Some d →
  Btn.device_id button = Sel.device_id (self w) →
  Sel.current_option (self (Sel.async_select_option "" w).2) = Some "" ∧
  Btn.async_press (with_self button (Sel.async_select_option "" w).2) =
    (Returned (),
     after (with_self button (Sel.async_select_option "" w).2) [warn_no_scene]).
Proof.
  intros Hd Hdev.
  rewrite (select_option_returns w d "" Hd); simpl. split; [done|].
  apply press_without_selection; simpl.
  unfold selection_of, dict_get; simpl. by rewrite Hdev, lookup_insert_eq.
Qed.

Lemma select_empty_string_disables_press_witness :
  let w := Demo.select_world (Demo.cloud (inr Demo.scenes_ABC) (inr ())) in
  let button := Btn.__init__ "s7_trigger_scene" "dev1" in
  selected_scenes (coordinator w) = Some ∅ ∧
  Sel.current_option (self (Sel.async_select_option "" w).2) = Some "" ∧
  Btn.async_press (with_self button (Sel.async_select_option "" w).2) =
    (Returned (),
     after (with_self button (Sel.async_select_option "" w).2) [warn_no_scene]).
Proof.
  intros w button. split; [reflexivity|].
  apply (select_empty_string_disables_press w ∅ button); reflexivity.
Defined.

(** X10.  After either method has returned, what the selector shows as its
    current option is what the button will read for the device. *)
Theorem selector_and_dict_agree (w : World Sel.t) (option : string) :
  ((Sel._fetch_scenes w).1 = Returned () →
   selection_of (coordinator (Sel._fetch_scenes w).2) (Sel.device_id (self w)) =
     Sel.current_option (self (Sel._fetch_scenes w).2)) ∧
  ((Sel.async_select_option option w).1 = Returned () →
   selection_of (coordinator (Sel.async_select_option option w).2)
     (Sel.device_id (self w)) =
     Sel.current_option (self (Sel.async_select_option option w).2)).
Proof.
  destruct (selected_scenes (coordinator w)) as [d|] eqn:Hd; split.
  - destruct (scenes_answer Sel.device_id w) as [err|scenes] eqn:Hans.
    + by rewrite (fetch_scenes_raises w err Hans).
    + rewrite (fetch_scenes_returns w d scenes Hd Hans); simpl. intros _.
      by eapply selected_scenes_setitem_lookup.
  - rewrite (select_option_returns w d option Hd); simpl. intros _.
    by eapply selected_scenes_setitem_lookup.
  - destruct (scenes_answer Sel.device_id w) as [err|scenes] eqn:Hans.
    + by rewrite (fetch_scenes_raises w err Hans).
    + by rewrite (fetch_scenes_without_attribute w scenes Hd Hans).
  - by rewrite (select_option_without_attribute w option Hd).
Qed.

(** X11.  A selector writes its own device's entry only: for every other
    device id the selection is the same before and after either method, in
    every outcome. *)
Theorem selector_leaves_other_devices (w : World Sel.t) (option : string)
    (other : string) :
  other ≠ Sel.device_id (self w) →
  selection_of (coordinator (Sel._fetch_scenes w).2) other =
    selection_of (coordinator w) other ∧
  selection_of (coordinator (Sel.async_select_option option w).2) other =
    selection_of (coordinator w) other.
Proof.
  intros Hother.
  destruct (selected_scenes (coordinator w)) as [d|] eqn:Hd; split.
  - destruct (scenes_answer Sel.device_id w) as [err|scenes] eqn:Hans.
    + by rewrite (fetch_scenes_raises w err Hans).
    + rewrite (fetch_scenes_returns w d scenes Hd Hans); simpl.
      unfold selection_of, dict_get; simpl. rewrite Hd.
      by rewrite lookup_insert_ne.
  - rewrite (select_option_returns w d option Hd); simpl.
    unfold selection_of, dict_get; simpl. rewrite Hd.
    by rewrite lookup_insert_ne.
  - destruct (scenes_answer Sel.device_id w) as [err|scenes] eqn:Hans.
    + by rewrite (fetch_scenes_raises w err Hans).
    + by rewrite (fetch_scenes_without_attribute w scenes Hd Hans).
  - by rewrite (select_option_without_attribute w option Hd).
Qed.

Lemma selector_leaves_other_devices_witness :
  let w := mkWorld
             (Sel.__init__ "s7_selected_scene" "dev1"
                (Demo.coordinator_of (Demo.cloud (inr Demo.scenes_ABC) (inr ()))
                   (Some {[ "dev2" := Some "C" ]}))).1
             (Demo.coordinator_of (Demo.cloud (inr Demo.scenes_ABC) (inr ()))
                (Some {[ "dev2" := Some "C" ]})) [] in
  "dev2" ≠ Sel.device_id (self w) ∧
  selection_of (coordinator (Sel._fetch_scenes w).2) "dev2" =
    selection_of (coordinator w) "dev2" ∧
  selection_of (coordinator (Sel.async_select_option "B" w).2) "dev2" =
    selection_of (coordinator w) "dev2".
Proof.
  intros w. split; [discriminate|].
  apply (selector_leaves_other_devices w "B" "dev2"). discriminate.
Defined.

(** X12.  A later selection replaces an earlier one without residue: the
    selector and the coordinator are the same as if only the later option
    had been selected. *)
Theorem select_option_overwrites (w : World Sel.t) d (first second : string) :
  selected_scenes (coordinator w) = Some d →
  self (Sel.async_select_option second
          (Sel.async_select_option first w).2).2 =
    self (Sel.async_select_option second w).2 ∧
  coordinator (Sel.async_select_option second
                 (Sel.async_select_option first w).2).2 =
    coordinator (Sel.async_select_option second w).2.
Proof.
  intros Hd.
  rewrite (select_option_returns w d first Hd).
  erewrite (select_option_returns _ _ second) by reflexivity.
  rewrite (select_option_returns w d second Hd); simpl.
  split; [done|]. by rewrite insert_insert_eq.
Qed.

Lemma select_option_overwrites_witness :
  let w := Demo.select_world (Demo.cloud (inr Demo.scenes_ABC) (inr ())) in
  selected_scenes (coordinator w) = Some ∅ ∧
  self (Sel.async_select_option "C" (Sel.async_select_option "B" w).2).2 =
    self (Sel.async_select_option "C" w).2 ∧
  coordinator (Sel.async_select_option "C" (Sel.async_select_option "B" w).2).2 =
    coordinator (Sel.async_select_option "C" w).2.
Proof.
  intros w. split; [reflexivity|].
  apply (select_option_overwrites w ∅ "B" "C"). reflexivity.
Defined.

Lemma selector_and_dict_agree_witness :
  let w := Demo.select_world (Demo.cloud (inr Demo.scenes_ABC) (inr ())) in
  (Sel._fetch_scenes w).1 = Returned () ∧
  selection_of (coordinator (Sel._fetch_scenes w).2) (Sel.device_id (self w)) =
    Sel.current_option (self (Sel._fetch_scenes w).2) ∧
  (Sel.async_select_option "Z" w).1 = Returned () ∧
  selection_of (coordinator (Sel.async_select_option "Z" w).2)
    (Sel.device_id (self w)) =
    Sel.current_option (self (Sel.async_select_option "Z" w).2).
Proof.
  intros w.
  destruct (selector_and_dict_agree w "Z") as [Hfetch Hselect].
  split; [reflexivity|]. split; [apply Hfetch; reflexivity|].
  split; [reflexivity|]. apply Hselect; reflexivity.
Defined.

(** Attaching is the parent's hook followed by the fetch. *)
Lemma added_to_hass_is_fetch (w : World Sel.t) :
  Sel.async_added_to_hass w = Sel._fetch_scenes (after w [SuperAddedToHass]).
Proof. reflexivity. Qed.

(** X13.  The options shown are always the names of the cached scenes: the
    constructor starts with both empty, and no method, in any outcome,
    leaves them apart. *)
Theorem options_always_match_scenes (w : World Sel.t) (option : string) :
  options_match_scenes (self w) →
  options_match_scenes (self (Sel._fetch_scenes w).2) ∧
  options_match_scenes (self (Sel.async_added_to_hass w).2) ∧
  options_match_scenes (self (Sel.async_select_option option w).2).
Proof.
  assert (∀ w' : World Sel.t, options_match_scenes (self w') →
            options_match_scenes (self (Sel._fetch_scenes w').2)) as Hfetch.
  { intros w' Hinv.
    destruct (scenes_answer Sel.device_id w') as [err|scenes] eqn:Hans.
    - by rewrite (fetch_scenes_raises w' err Hans).
    - destruct (selected_scenes (coordinator w')) as [d|] eqn:Hd.
      + by rewrite (fetch_scenes_returns w' d scenes Hd Hans).
      + by rewrite (fetch_scenes_without_attribute w' scenes Hd Hans). }
  intros Hinv. split; [by apply Hfetch|]. split.
  - rewrite added_to_hass_is_fetch. by apply Hfetch.
  - destruct (selected_scenes (coordinator w)) as [d|] eqn:Hd.
    + by rewrite (select_option_returns w d option Hd).
    + by rewrite (select_option_without_attribute w option Hd).
Qed.

Lemma options_always_match_scenes_witness :
  let w := Demo.select_world (Demo.cloud (inr Demo.scenes_ABC) (inr ())) in
  options_match_scenes (self w) ∧
  options_match_scenes (self (Sel._fetch_scenes w).2) ∧
  options_match_scenes (self (Sel.async_added_to_hass w).2) ∧
  options_match_scenes (self (Sel.async_select_option "Z" w).2).
Proof.
  intros w. split; [reflexivity|].
  apply (options_always_match_scenes w "Z"). reflexivity.
Defined.

(** X14.  Constructing a selector makes sure the coordinator has the dict
    and changes nothing a button can read: an existing dict is kept, entry by
    entry, the client and the credentials are untouched, and a second
    construction on the same coordinator changes nothing more. *)
Theorem init_keeps_every_selection unique_id device_id (co : Coordinator) :
  is_Some (selected_scenes (Sel.__init__ unique_id device_id co).2) ∧
  (∀ dev, selection_of (Sel.__init__ unique_id device_id co).2 dev =
          selection_of co dev) ∧
  cloud_api (Sel.__init__ unique_id device_id co).2 = cloud_api co ∧
  user_data (Sel.__init__ unique_id device_id co).2 = user_data co ∧
  (∀ unique_id' device_id',
     (Sel.__init__ unique_id' device_id'
        (Sel.__init__ unique_id device_id co).2).2 =
     (Sel.__init__ unique_id device_id co).2).
Proof.
  unfold Sel.__init__, selection_of; simpl.
  destruct (selected_scenes co) as [d|] eqn:Hd; simpl; rewrite ?Hd;
    repeat split; eauto.
Qed.

(** X15.  The selector's own resolution and the button's agree: when the
    button reads the selector's current option and the cloud answers the
    press with the list the selector has cached, the press executes the id
    [get_selected_scene_id] gives, provided it is not zero. *)
Theorem press_agrees_with_get_selected_scene_id (s : Sel.t) (w : World Btn.t)
    (i : Z) :
  selection_of (coordinator w) (Btn.device_id (self w)) = Sel.current_option s →
  truthy_opt_str (Sel.current_option s) = true →
  scenes_answer Btn.device_id w = inr (Sel._scenes s) →
  Sel.get_selected_scene_id s = Some i →
  i ≠ 0%Z →
  executed (trace (Btn.async_press w).2) = executed (trace w) ++ [i].
Proof.
  unfold Sel.current_option, Sel.get_selected_scene_id.
  intros Hsel Htruthy Hans Hid Hnz.
  apply (press_calls_execute w (Sel._scenes s) i); by rewrite ?Hsel.
Qed.

Lemma press_agrees_with_get_selected_scene_id_witness :
  let s := self (Sel._fetch_scenes
                   (Demo.select_world
                      (Demo.cloud (inr Demo.scenes_ABC) (inr ())))).2 in
  let w := Demo.button_world (Demo.cloud (inr Demo.scenes_ABC) (inr ()))
             (Demo.chose (Some "A")) in
  Sel.get_selected_scene_id s = Some 1%Z ∧
  executed (trace (Btn.async_press w).2) = executed (trace w) ++ [1%Z].
Proof.
  intros s w. split; [reflexivity|].
  apply (press_agrees_with_get_selected_scene_id s w 1).
  - vm_compute; reflexivity.
  - reflexivity.
  - reflexivity.
  - reflexivity.
  - discriminate.
Defined.

(** * Properties of the platform setup *)

(** ** The two suffixes of the unique ids *)

Lemma list_ascii_of_string_app (s t : string) :
  String.list_ascii_of_string (s +:+ t) =
  String.list_ascii_of_string s ++ String.list_ascii_of_string t.
Proof. induction s as [|c s IH]; simpl; [done | by rewrite IH]. Qed.

Lemma append_suffix_inj (s1 s2 t : string) : s1 +:+ t = s2 +:+ t → s1 = s2.
Proof.
  intros H. apply (f_equal String.list_ascii_of_string) in H.
  rewrite !list_ascii_of_string_app in H. apply app_inv_tail in H.
  apply (f_equal String.string_of_list_ascii) in H.
  by rewrite !String.string_of_list_ascii_of_string in H.
Qed.

Lemma selector_suffix_is_not_button_suffix (s1 s2 : string) :
  s1 +:+ "_selected_scene" ≠ s2 +:+ "_trigger_scene".
Proof.
  intros H. apply (f_equal String.list_ascii_of_string) in H.
  rewrite !list_ascii_of_string_app in H.
  apply (f_equal (@rev _)) in H. rewrite !rev_app_distr in H.
  simpl in H. discriminate H.
Qed.

(** ** The loop *)

Section SetupProperties.

Variable slugify : string → string.

Lemma same_for_entities_refl o : same_for_entities o o.
Proof. by repeat split. Qed.

Lemma same_for_entities_trans o1 o2 o3 :
  same_for_entities o1 o2 → same_for_entities o2 o3 → same_for_entities o1 o3.
Proof.
  intros (Hn & Hc & Hu & Hs & Hk) (Hn' & Hc' & Hu' & Hs' & Hk').
  split; [congruence|]. split; [congruence|]. split; [congruence|]. split.
  - intros dev. by rewrite Hs', Hs.
  - intros Hsome. rewrite Hk'; rewrite Hk; done.
Qed.

(** The constructor's effect on a coordinator object. *)
Lemma same_for_entities_init unique_id device_id o :
  same_for_entities o
    {| attrs := (Sel.__init__ unique_id device_id (attrs o)).2;
       data_device_name := data_device_name o |}.
Proof.
  repeat split; simpl.
  - by destruct (selected_scenes (attrs o)).
  - by destruct (selected_scenes (attrs o)).
  - intros dev. unfold selection_of.
    by destruct (selected_scenes (attrs o)) eqn:Hd; simpl; rewrite ?Hd.
  - by intros [d ->].
Qed.

Lemma entities_of_device_ext (h1 h2 : Heap) item :
  (∀ r, data_device_name (h1 r) = data_device_name (h2 r)) →
  entities_of_device slugify h1 item = entities_of_device slugify h2 item.
Proof. intros Hn. unfold entities_of_device. by rewrite Hn. Qed.

Lemma setup_device_step (entities : list Entity) (h : Heap) item :
  setup_device slugify (entities, h) item =
    (entities ++ entities_of_device slugify h item,
     heap_set h item.2
       {| attrs := (Sel.__init__ "" "" (attrs (h item.2))).2;
          data_device_name := data_device_name (h item.2) |}).
Proof. by destruct item as [dev r]. Qed.

Lemma setup_loop (items : list (string * nat)) :
  ∀ (entities : list Entity) (h : Heap),
    (foldl (setup_device slugify) (entities, h) items).1 =
      entities ++ flat_map (entities_of_device slugify h) items ∧
    (∀ r, same_for_entities (h r)
            ((foldl (setup_device slugify) (entities, h) items).2 r)) ∧
    (∀ r, r ∈ items.*2 →
          is_Some (selected_scenes
                     (attrs ((foldl (setup_device slugify) (entities, h) items).2 r)))) ∧
    (∀ r, r ∉ items.*2 →
          (foldl (setup_device slugify) (entities, h) items).2 r = h r).
Proof.
  induction items as [|item items IH]; intros entities h.
  { simpl. rewrite app_nil_r. repeat split; try done.
    intros r Hr. by apply elem_of_nil in Hr. }
  cbn [foldl flat_map]. rewrite fmap_cons. rewrite setup_device_step.
  set (h1 := heap_set h item.2 _).
  assert (∀ r, same_for_entities (h r) (h1 r)) as Hstep.
  { intros r. subst h1. unfold heap_set. case_decide as Hr; subst.
    - apply same_for_entities_init.
    - apply same_for_entities_refl. }
  destruct (IH (entities ++ entities_of_device slugify h item) h1)
    as (Hentities & Hsame & Hdict & Hrest).
  repeat split.
  - rewrite Hentities, <- app_assoc. do 2 f_equal.
    clear -Hstep. induction items as [|x items IH]; [done|].
    cbn [flat_map]. rewrite IH. f_equal. apply entities_of_device_ext.
    intros r. by destruct (Hstep r) as [-> _].
  - apply same_for_entities_trans with (h1 r); auto.
  - apply same_for_entities_trans with (h1 r); auto.
  - apply same_for_entities_trans with (h1 r); auto.
  - apply same_for_entities_trans with (h1 r); auto.
  - apply same_for_entities_trans with (h1 r); auto.
  - intros r [->|Hr]%elem_of_cons.
    + destruct (decide (item.2 ∈ items.*2)) as [Hin|Hout]; [by apply Hdict|].
      rewrite (Hrest _ Hout). subst h1. unfold heap_set.
      rewrite decide_True by done. simpl.
      destruct (selected_scenes (attrs (h item.2))) eqn:Hd; simpl;
        rewrite ?Hd; eauto.
    + by apply Hdict.
  - intros r Hr. apply not_elem_of_cons in Hr as [Hne Hr].
    rewrite (Hrest _ Hr). subst h1. unfold heap_set.
    by rewrite decide_False.
Qed.

(** Shared by the theorems on the added entities. *)
Lemma setup_adds_a_pair_per_device_loop (items : list (string * nat)) (h : Heap) :
  (async_setup_entry slugify (Some items) h).1 =
    Returned (flat_map (entities_of_device slugify h) items) ∧
  entity_unique_id <$> flat_map (entities_of_device slugify h) items =
    flat_map (λ sl, [sl +:+ "_selected_scene"; sl +:+ "_trigger_scene"])
      ((λ item, slugify (data_device_name (h item.2))) <$> items).
Proof.
  split.
  - unfold async_setup_entry.
    destruct (setup_loop items [] h) as (Hentities & _).
    destruct (foldl (setup_device slugify) ([], h) items) as [entities h'].
    simpl in *. by subst entities.
  - induction items as [|item items IH]; [done|].
    cbn [flat_map]. rewrite fmap_app, IH. reflexivity.
Qed.

(** X16.  On return the setup has made one entity pair per device, in the
    order the devices are iterated, the selector before the button; both
    carry the device's id and coordinator, and their unique ids are the
    slugified device name followed by [_selected_scene] and
    [_trigger_scene]. *)
Theorem setup_adds_a_pair_per_device (items : list (string * nat)) (h : Heap) :
  (async_setup_entry slugify (Some items) h).1 =
    Returned (flat_map (entities_of_device slugify h) items) ∧
  length (added_entities (async_setup_entry slugify (Some items) h)) =
    2 * length items ∧
  entity_device_id <$> added_entities (async_setup_entry slugify (Some items) h) =
    flat_map (λ item, [item.1; item.1]) items ∧
  entity_coordinator_ref <$>
    added_entities (async_setup_entry slugify (Some items) h) =
    flat_map (λ item, [item.2; item.2]) items.
Proof.
  unfold added_entities, async_setup_entry.
  destruct (setup_loop items [] h) as (Hentities & _).
  destruct (foldl (setup_device slugify) ([], h) items) as [entities h'].
  simpl in *. subst entities.
  split; [done|]. clear h'. repeat split.
  - induction items as [|item items IH]; [done|].
    cbn [flat_map]. rewrite length_app, IH. simpl. lia.
  - induction items as [|item items IH]; [done|].
    cbn [flat_map]. by rewrite fmap_app, IH.
  - induction items as [|item items IH]; [done|].
    cbn [flat_map]. by rewrite fmap_app, IH.
Qed.

(** X17.  After the setup every coordinator a device refers to has the
    [selected_scenes] dict, so no selector method can fail on a missing
    attribute.  Nothing else is changed: every coordinator keeps its client,
    its credentials, its device name and every selection it held, a
    coordinator that had the dict is identical, and coordinators of no
    listed device are untouched. *)
Theorem setup_prepares_every_coordinator (items : list (string * nat))
    (h : Heap) :
  (∀ dev r, (dev, r) ∈ items →
     is_Some (selected_scenes
                (attrs ((async_setup_entry slugify (Some items) h).2 r)))) ∧
  (∀ r, same_for_entities (h r)
          ((async_setup_entry slugify (Some items) h).2 r)) ∧
  (∀ r, r ∉ items.*2 →
     (async_setup_entry slugify (Some items) h).2 r = h r).
Proof.
  unfold async_setup_entry.
  destruct (setup_loop items [] h) as (_ & Hsame & Hdict & Hrest).
  destruct (foldl (setup_device slugify) ([], h) items) as [entities h'].
  simpl in *. repeat split; try apply Hsame; auto.
  intros dev r Hin. apply Hdict. apply list_elem_of_fmap.
  by exists (dev, r).
Qed.

End SetupProperties.

(** ** Unique ids, and the entities at work *)

(** The unique ids built from a list of slugs. *)
Lemma unique_ids_of_slugs_elem (slugs : list string) (s : string) :
  (s +:+ "_selected_scene" ∈
     flat_map (λ sl, [sl +:+ "_selected_scene"; sl +:+ "_trigger_scene"]) slugs
   ↔ s ∈ slugs) ∧
  (s +:+ "_trigger_scene" ∈
     flat_map (λ sl, [sl +:+ "_selected_scene"; sl +:+ "_trigger_scene"]) slugs
   ↔ s ∈ slugs).
Proof.
  induction slugs as [|x slugs [IHsel IHbtn]]; cbn [flat_map app].
  { split; split; intros H; by apply elem_of_nil in H. }
  split; rewrite !elem_of_cons.
  - rewrite IHsel. split.
    + intros [H|[H|H]]; [left; by eapply append_suffix_inj| |by right].
      by apply selector_suffix_is_not_button_suffix in H.
    + intros [->|H]; auto.
  - rewrite IHbtn. split.
    + intros [H|[H|H]]; [|left; by eapply append_suffix_inj|by right].
      symmetry in H. by apply selector_suffix_is_not_button_suffix in H.
    + intros [->|H]; auto.
Qed.

Lemma unique_ids_of_slugs_NoDup (slugs : list string) :
  NoDup (flat_map (λ sl, [sl +:+ "_selected_scene"; sl +:+ "_trigger_scene"])
           slugs) ↔
  NoDup slugs.
Proof.
  induction slugs as [|x slugs IH]; cbn [flat_map app].
  { split; intros _; constructor. }
  rewrite !NoDup_cons, IH, elem_of_cons.
  destruct (unique_ids_of_slugs_elem slugs x) as [-> ->].
  split.
  - intros (_ & Hx & Hnodup). by split.
  - intros [Hx Hnodup]. split; [|by split].
    intros [H|H]; [|done].
    by apply selector_suffix_is_not_button_suffix in H.
Qed.

Section SetupAtWork.

Variable slugify : string → string.

(** X18.  The unique ids of the entities the setup adds are pairwise
    distinct exactly when the slugified names of the listed devices are: a
    selector and a button never collide, two devices whose names slugify
    alike always do. *)
Theorem setup_unique_ids_distinct_iff (items : list (string * nat)) (h : Heap) :
  NoDup (entity_unique_id <$>
           added_entities (async_setup_entry slugify (Some items) h)) ↔
  NoDup ((λ item, slugify (data_device_name (h item.2))) <$> items).
Proof.
  unfold added_entities.
  destruct (setup_adds_a_pair_per_device_loop slugify items h) as [-> Hids].
  simpl. rewrite Hids. apply unique_ids_of_slugs_NoDup.
Qed.

End SetupAtWork.

Section FromSetupToPress.

Variable slugify : string → string.

(** X19.  From setup to execution.  For a listed device whose cloud answers
    with a non-empty scene list, attaching a selector of that device after
    the setup returns, and a press of the device's button then executes the
    first scene of the list, provided that scene has a non-empty name and a
    non-zero id. *)
Theorem setup_attach_press_runs_first_scene (items : list (string * nat))
    (h : Heap) (dev : string) (r : nat) (selector : Sel.t) (button : Btn.t)
    (first : Scene) (others : list Scene) :
  (dev, r) ∈ items →
  Sel.device_id selector = dev →
  Btn.device_id button = dev →
  get_scenes (cloud_api (attrs (h r))) (user_data (attrs (h r))) dev =
    inr (first :: others) →
  truthy_str (name first) = true →
  id first ≠ 0%Z →
  (Sel.async_added_to_hass
     (mkWorld selector
        (attrs ((async_setup_entry slugify (Some items) h).2 r)) [])).1 =
    Returned () ∧
  executed
    (trace
       (Btn.async_press
          (with_self button
             (Sel.async_added_to_hass
                (mkWorld selector
                   (attrs ((async_setup_entry slugify (Some items) h).2 r))
                   [])).2)).2) =
    [id first].
Proof.
  intros Hin Hsel Hbtn Hans Htruthy Hnz.
  destruct (setup_loop slugify items [] h) as (_ & Hsame & Hdict & _).
  assert ((async_setup_entry slugify (Some items) h).2 =
          (foldl (setup_device slugify) ([], h) items).2) as ->.
  { unfold async_setup_entry.
    by destruct (foldl (setup_device slugify) ([], h) items). }
  set (h' := (foldl (setup_device slugify) ([], h) items).2) in *.
  destruct (Hsame r) as (_ & Hcloud & Huser & _).
  destruct (Hdict r) as [d Hd].
  { apply list_elem_of_fmap. by exists (dev, r). }
  rewrite added_to_hass_is_fetch.
  set (w0 := after (mkWorld selector (attrs (h' r)) []) [SuperAddedToHass]).
  assert (scenes_answer Sel.device_id w0 = inr (first :: others)) as Hans0.
  { unfold scenes_answer; simpl. by rewrite Hcloud, Huser, Hsel. }
  rewrite (fetch_scenes_returns w0 d (first :: others) Hd Hans0).
  split; [done|]. simpl.
  set (w1 := with_self button _).
  assert (selection_of (coordinator w1) (Btn.device_id (self w1)) =
          Some (name first)) as Hsel1.
  { subst w1; simpl. rewrite Hbtn, <- Hsel.
    by eapply selected_scenes_setitem_lookup. }
  destruct (press_calls_execute w1 (first :: others) (id first)) as [_ ->].
  - by rewrite Hsel1.
  - unfold scenes_answer; simpl. by rewrite Hcloud, Huser, Hbtn.
  - rewrite Hsel1; simpl. by rewrite bool_decide_eq_true_2.
  - exact Hnz.
  - reflexivity.
Qed.

End FromSetupToPress.

Lemma setup_attach_press_runs_first_scene_witness :
  let h := DemoSetup.heap (Demo.cloud (inr Demo.scenes_ABC) (inr ())) in
  let selector := (Sel.__init__ "s7_selected_scene" "dev1" (attrs (h 0))).1 in
  let button := Btn.__init__ "s7_trigger_scene" "dev1" in
  ("dev1", 0) ∈ DemoSetup.devices ∧
  (Sel.async_added_to_hass
     (mkWorld selector
        (attrs ((async_setup_entry DemoSetup.slug
                   (Some DemoSetup.devices) h).2 0)) [])).1 =
    Returned () ∧
  executed
    (trace
       (Btn.async_press
          (with_self button
             (Sel.async_added_to_hass
                (mkWorld selector
                   (attrs ((async_setup_entry DemoSetup.slug
                              (Some DemoSetup.devices) h).2 0))
                   [])).2)).2) =
    [1%Z].
Proof.
  intros h selector button.
  assert (("dev1", 0) ∈ DemoSetup.devices) as Hin.
  { apply elem_of_cons. by left. }
  split; [exact Hin|].
  apply (setup_attach_press_runs_first_scene DemoSetup.slug DemoSetup.devices
           h "dev1" 0 selector button Demo.scene_A
           [Demo.scene_B; Demo.scene_C]).
  - exact Hin.
  - reflexivity.
  - reflexivity.
  - reflexivity.
  - reflexivity.
  - discriminate.
Defined.

(** The setup of the two demo devices: four entities, two unique ids per
    device. *)
Example setup_of_two_devices :
  entity_unique_id <$>
    added_entities
      (async_setup_entry DemoSetup.slug (Some DemoSetup.devices)
         (DemoSetup.heap (Demo.cloud (inr Demo.scenes_ABC) (inr ())))) =
  ["s7_selected_scene"; "s7_trigger_scene";
   "q5_selected_scene"; "q5_trigger_scene"].
Proof. reflexivity. Qed.
